(** * The Lemon Agent integration notebook

  A model of [docs/extras/integrations/tools/lemonai.ipynb]: the three
  code cells of the quick start, the [lemonai.json] example and the
  [lemonai.log] example shown in its markdown cells.

  The notebook owns no algorithm.  Its code cells are a script that
  imports two external callables, writes two entries of [os.environ],
  binds five names and calls [execute_workflow] once.  The script is
  embedded as syntax (so that properties of its shape can be stated)
  together with an evaluator for Python's simple statements in which
  every external callable is a parameter. *)

From Stdlib Require Import ZArith Ascii String List Bool Lia.
From stdpp Require Import base option list gmap strings pretty.

Import ListNotations.
Set Warnings "-register-all".
Local Open Scope string_scope.
Local Open Scope list_scope.

(** ** The double quote and the newline, by their codes *)

Definition dq : string := String (ascii_of_nat 34) EmptyString.
Definition nl : string := String (ascii_of_nat 10) EmptyString.

(** A Python (or JSON) double-quoted literal holding [s]. *)
Definition quoted (s : string) : string := dq +:+ s +:+ dq.

(** ** Syntax of the code cells *)

Module Syntax.

(** Expressions.  An f-string is a list of pieces, each literal text or
    a replacement field. *)
Inductive expr : Type :=
| EStr (s : string)
| EInt (z : Z)
| EName (x : string)
| EAttr (obj : expr) (attr : string)
| EFString (parts : list fpart)
| ECall (callee : expr) (args : list expr) (kwargs : list (string * expr))
with fpart : Type :=
| FLit (s : string)
| FField (e : expr).

(** Python's simple statements, as far as the notebook uses them. *)
Inductive simple_stmt : Type :=
| SImport (module : string)
| SFromImport (module name : string)
| SExpr (e : expr)
| SAssign (target : string) (value : expr)
| SSetItem (obj key value : expr).

(** Statements: a simple statement, or one of the compound statements
    that introduce branching, iteration or a local function. *)
Inductive stmt : Type :=
| Simple (s : simple_stmt)
| SIf (test : expr) (body orelse : list stmt)
| SWhile (test : expr) (body : list stmt)
| SFor (target : string) (iter : expr) (body : list stmt)
| SDef (name : string) (params : list string) (body : list stmt).

Inductive cell : Type :=
| Markdown (source : list string)
| Code (source : list stmt).

End Syntax.
Import Syntax.

(** ** The notebook *)

Module Notebook.

(** Cell [5318715d]. *)
Definition cell_5318715d : list stmt :=
  [ Simple (SImport "os");
    Simple (SFromImport "lemonai" "execute_workflow");
    Simple (SFromImport "langchain" "OpenAI") ].

Definition os_environ : expr := EAttr (EName "os") "environ".

(** Cell [a370d999]. *)
Definition cell_a370d999 : list stmt :=
  [ Simple (SExpr (EStr " Load all relevant API Keys and Access Tokens into your environment variables "));
    Simple (SSetItem os_environ (EStr "OPENAI_API_KEY") (EStr "*INSERT OPENAI API KEY HERE*"));
    Simple (SSetItem os_environ (EStr "AIRTABLE_ACCESS_TOKEN") (EStr "*INSERT AIRTABLE TOKEN HERE*")) ].

(** The f-string bound to [prompt] in cell [38d158e7]. *)
Definition prompt_fstring : expr :=
  EFString
    [ FLit "Read information from Hackernews for user ";
      FField (EName "hackernews_username");
      FLit (" and then write the results to" +:+ nl +:+ "Airtable (baseId: ");
      FField (EName "airtable_base_id");
      FLit ", tableId: ";
      FField (EName "airtable_table_id");
      FLit ("). Only write the fields " +:+ quoted "username" +:+ ", " +:+ quoted "karma" +:+ nl
            +:+ "and " +:+ quoted "created_at_i"
            +:+ ". Please make sure that Airtable does NOT automatically convert the field types."
            +:+ nl) ].

Definition execute_workflow_call : expr :=
  ECall (EName "execute_workflow") []
        [ ("llm", EName "model"); ("prompt_string", EName "prompt") ].

(** Cell [38d158e7]. *)
Definition cell_38d158e7 : list stmt :=
  [ Simple (SAssign "hackernews_username" (EStr "*INSERT HACKERNEWS USERNAME HERE*"));
    Simple (SAssign "airtable_base_id" (EStr "*INSERT BASE ID HERE*"));
    Simple (SAssign "airtable_table_id" (EStr "*INSERT TABLE ID HERE*"));
    Simple (SExpr (EStr " Define your instruction to be given to your LLM "));
    Simple (SAssign "prompt" prompt_fstring);
    Simple (SExpr (EStr (nl +:+ "Use the Lemon AI execute_workflow wrapper " +:+ nl
                         +:+ "to run your Langchain agent in combination with Lemon AI  " +:+ nl)));
    Simple (SAssign "model" (ECall (EName "OpenAI") [] [ ("temperature", EInt 0) ]));
    Simple (SExpr execute_workflow_call) ].

(** The fenced [json] block of markdown cell [e423ebbb]. *)
Definition lemonai_json : list string :=
  [ "[";
    "  {";
    "    " +:+ quoted "name" +:+ ": " +:+ quoted "Hackernews Airtable User Workflow" +:+ ",";
    "    " +:+ quoted "description" +:+ ": "
      +:+ quoted "retrieves user data from Hackernews and appends it to a table in Airtable" +:+ ",";
    "    " +:+ quoted "tools" +:+ ": [" +:+ quoted "hackernews-get-user" +:+ ", "
      +:+ quoted "airtable-append-data" +:+ "]";
    "  }";
    "]" ].

(** The authentication strings listed in markdown cell [c9d082cb]:
    four for API keys, two for authentication tokens. *)
Definition api_key_strings : list string :=
  [ "API_KEY"; "SECRET_KEY"; "SUBSCRIPTION_KEY"; "ACCESS_KEY" ].
Definition token_strings : list string :=
  [ "ACCESS_TOKEN"; "SECRET_TOKEN" ].

(** The fenced [log] block of markdown cell [aef3e801]. *)
Definition lemonai_log : list string :=
  [ "2023-06-26T11:50:27.708785+0100 - b5f91c59-8487-45c2-800a-156eac0c7dae - hackernews-get-user";
    "2023-06-26T11:50:39.624035+0100 - b5f91c59-8487-45c2-800a-156eac0c7dae - airtable-append-data";
    "2023-06-26T11:58:32.925228+0100 - 5efe603c-9898-4143-b99a-55b50007ed9d - hackernews-get-user";
    "2023-06-26T11:58:43.988788+0100 - 5efe603c-9898-4143-b99a-55b50007ed9d - airtable-append-data" ].

(** The cells of the notebook that matter here, in document order. *)
Definition cells : list cell :=
  [ Markdown (("```json" :: lemonai_json) ++ ["```"]);
    Code cell_5318715d;
    Code cell_a370d999;
    Code cell_38d158e7;
    Markdown (("```log" :: lemonai_log) ++ ["```"]) ].

Definition code_of (c : cell) : list stmt :=
  match c with
  | Markdown _ => []
  | Code src => src
  end.

(** All code of the notebook: the cells run top to bottom, each as the
    statements it holds. *)
Definition code : list stmt := concat (map code_of cells).

End Notebook.

(** ** Evaluation of the simple statements *)

Module Py.

Inductive value : Type :=
| VNone
| VInt (z : Z)
| VStr (s : string)
| VModule (module : string)              (* bound by [import module] *)
| VImported (module name : string)       (* bound by [from module import name] *)
| VEnviron                               (* the mapping object [os.environ] *)
| VForeign (handle : nat).               (* an object owned by an external library *)

(** How a statement can stop the script.  [NotModelled] marks behaviour
    of Python that this development gives no meaning to; the three others
    are exceptions. *)
Inductive exn : Type :=
| NameError (name : string)
| TypeError (msg : string)
| ExternalError (msg : string)
| NotModelled (what : string).

(** What is observable of a run, in order of occurrence: a write to the
    process environment, or a call of an imported callable together with
    the environment it was made in. *)
Inductive event : Type :=
| EnvWrite (key val : string)
| ExternCall (module name : string) (args : list value)
             (kwargs : list (string * value)) (env : gmap string string).

Record state : Type := mkState {
  environ : gmap string string;     (* os.environ *)
  globals : gmap string value;      (* the kernel's namespace *)
  log_file : list string;           (* lines of lemonai.log *)
  trace : list event
}.

(** The answer of an external callable: it returns a value or raises,
    and may have appended lines to the log file meanwhile. *)
Record reply : Type := mkReply {
  result : value + string;
  appended : list string
}.

Definition M (A : Type) : Type := state -> (A + exn) * state.

Definition ret {A} (a : A) : M A := fun st => (inl a, st).
Definition raise {A} (e : exn) : M A := fun st => (inr e, st).
Definition bind {A B} (m : M A) (k : A -> M B) : M B :=
  fun st => match m st with
            | (inl a, st') => k a st'
            | (inr e, st') => (inr e, st')
            end.

Notation "x <- m ;; k" := (bind m (fun x => k))
  (at level 100, m at next level, right associativity).

Definition set_global (x : string) (v : value) : M unit :=
  fun st => (inl tt, mkState (environ st) (<[x := v]> (globals st)) (log_file st) (trace st)).

Definition get_global (x : string) : M value :=
  fun st => match globals st !! x with
            | Some v => (inl v, st)
            | None => (inr (NameError x), st)
            end.

Definition set_environ (k v : string) : M unit :=
  fun st => (inl tt, mkState (<[k := v]> (environ st)) (globals st) (log_file st)
                             (trace st ++ [EnvWrite k v])).

(** [str(v)] as used by a replacement field of an f-string. *)
Definition str_of (v : value) : M string :=
  match v with
  | VStr s => ret s
  | VInt z => ret (pretty z)
  | VNone => ret "None"
  | _ => raise (NotModelled "str() of this object")
  end.

Definition getattr (v : value) (attr : string) : M value :=
  match v with
  | VModule m =>
      if (String.eqb m "os" && String.eqb attr "environ")%bool then ret VEnviron
      else ret (VImported m attr)
  | _ => raise (NotModelled "attribute of this object")
  end.

(** [obj[key] = val]. *)
Definition setitem (obj key val : value) : M unit :=
  match obj with
  | VEnviron =>
      match key, val with
      | VStr k, VStr v => set_environ k v
      | _, _ => raise (TypeError "str expected")
      end
  | VNone | VInt _ | VStr _ | VModule _ =>
      raise (TypeError "object does not support item assignment")
  | _ => raise (NotModelled "item assignment on this object")
  end.

Section Evaluator.

(** Everything imported from [lemonai] and [langchain] lives outside the
    notebook: a call is answered by [extern], which sees the callable,
    its arguments and the state of the process at the time of the call. *)
Variable extern : string -> string -> list value -> list (string * value) -> state -> reply.

Definition call_extern (m n : string) (args : list value) (kwargs : list (string * value)) : M value :=
  fun st =>
    let r := extern m n args kwargs st in
    let st' := mkState (environ st) (globals st) (log_file st ++ appended r)
                       (trace st ++ [ExternCall m n args kwargs (environ st)]) in
    match result r with
    | inl v => (inl v, st')
    | inr msg => (inr (ExternalError msg), st')
    end.

Definition call (f : value) (args : list value) (kwargs : list (string * value)) : M value :=
  match f with
  | VImported m n => call_extern m n args kwargs
  | VNone | VInt _ | VStr _ | VModule _ | VEnviron =>
      raise (TypeError "object is not callable")
  | VForeign _ => raise (NotModelled "call of a foreign object")
  end.

Fixpoint eval (e : expr) : M value :=
  match e with
  | EStr s => ret (VStr s)
  | EInt z => ret (VInt z)
  | EName x => get_global x
  | EAttr obj attr => v <- eval obj ;; getattr v attr
  | EFString parts =>
      s <- (fix pieces (ps : list fpart) : M string :=
              match ps with
              | [] => ret EmptyString
              | p :: ps' =>
                  s1 <- match p with
                        | FLit s => ret s
                        | FField e' => v <- eval e' ;; str_of v
                        end ;;
                  s2 <- pieces ps' ;;
                  ret (s1 +:+ s2)
              end) parts ;;
      ret (VStr s)
  | ECall callee args kwargs =>
      f <- eval callee ;;
      avs <- (fix positional (es : list expr) : M (list value) :=
                match es with
                | [] => ret []
                | e' :: es' => v <- eval e' ;; vs <- positional es' ;; ret (v :: vs)
                end) args ;;
      kvs <- (fix keywords (ks : list (string * expr)) : M (list (string * value)) :=
                match ks with
                | [] => ret []
                | (k, e') :: ks' => v <- eval e' ;; vs <- keywords ks' ;; ret ((k, v) :: vs)
                end) kwargs ;;
      call f avs kvs
  end.

(** One simple statement.  In [obj[key] = val] the right-hand side is
    evaluated first, then the object, then the key. *)
Definition exec_stmt (s : simple_stmt) : M unit :=
  match s with
  | SImport m => set_global m (VModule m)
  | SFromImport m n => set_global n (VImported m n)
  | SExpr e => _ <- eval e ;; ret tt
  | SAssign x e => v <- eval e ;; set_global x v
  | SSetItem obj key val =>
      v <- eval val ;; o <- eval obj ;; k <- eval key ;; setitem o k v
  end.

(** A block runs its statements in order and stops at the first one
    that raises. *)
Fixpoint exec_block (ss : list simple_stmt) : M unit :=
  match ss with
  | [] => ret tt
  | s :: ss' => _ <- exec_stmt s ;; exec_block ss'
  end.

End Evaluator.

(** A fresh kernel: nothing bound, nothing observed yet; the process
    environment and the log file are whatever they were. *)
Definition fresh (env : gmap string string) (log : list string) : state :=
  mkState env ∅ log [].

End Py.

(** ** The script of the notebook *)

Module Script.
Import Py.

(** The simple statements of a block that has no compound statement. *)
Fixpoint straight_line (ss : list stmt) : option (list simple_stmt) :=
  match ss with
  | [] => Some []
  | Simple s :: ss' => cons s <$> straight_line ss'
  | _ => None
  end.

(** Running the notebook in a fresh kernel, cells top to bottom. *)
Definition run (extern : string -> string -> list value -> list (string * value) -> state -> reply)
    (env : gmap string string) (log : list string) : (unit + exn) * state :=
  match straight_line Notebook.code with
  | Some ss => exec_block extern ss (fresh env log)
  | None => (inr (NotModelled "compound statement"), fresh env log)
  end.

(** The notebook as a block of simple statements. *)
Definition script : list simple_stmt := default [] (straight_line Notebook.code).

(** The statements of the notebook before the first call, which is the
    thirteenth statement. *)
Definition preamble : list simple_stmt := firstn 12 script.

(** The text the f-string of cell [38d158e7] produces. *)
Definition prompt_text : string :=
  "Read information from Hackernews for user *INSERT HACKERNEWS USERNAME HERE*"
  +:+ " and then write the results to" +:+ nl
  +:+ "Airtable (baseId: *INSERT BASE ID HERE*, tableId: *INSERT TABLE ID HERE*)."
  +:+ " Only write the fields " +:+ quoted "username" +:+ ", " +:+ quoted "karma" +:+ nl
  +:+ "and " +:+ quoted "created_at_i"
  +:+ ". Please make sure that Airtable does NOT automatically convert the field types." +:+ nl.

Definition OPENAI_API_KEY : string := "OPENAI_API_KEY".
Definition AIRTABLE_ACCESS_TOKEN : string := "AIRTABLE_ACCESS_TOKEN".

(** The two writes of cell [a370d999], in order. *)
Definition environ_writes : list event :=
  [ EnvWrite OPENAI_API_KEY "*INSERT OPENAI API KEY HERE*";
    EnvWrite AIRTABLE_ACCESS_TOKEN "*INSERT AIRTABLE TOKEN HERE*" ].

Definition environ_after (env : gmap string string) : gmap string string :=
  <[AIRTABLE_ACCESS_TOKEN := "*INSERT AIRTABLE TOKEN HERE*"]>
    (<[OPENAI_API_KEY := "*INSERT OPENAI API KEY HERE*"]> env).

(** The namespace when [OpenAI(temperature=0)] is evaluated. *)
Definition names_before_model : gmap string value :=
  <["prompt" := VStr prompt_text]>
    (<["airtable_table_id" := VStr "*INSERT TABLE ID HERE*"]>
      (<["airtable_base_id" := VStr "*INSERT BASE ID HERE*"]>
        (<["hackernews_username" := VStr "*INSERT HACKERNEWS USERNAME HERE*"]>
          (<["OpenAI" := VImported "langchain" "OpenAI"]>
            (<["execute_workflow" := VImported "lemonai" "execute_workflow"]>
              (<["os" := VModule "os"]> ∅)))))).

Section Run.

Variable extern : string -> string -> list value -> list (string * value) -> state -> reply.
Variable env : gmap string string.
Variable log : list string.

(** The state in which the constructor [OpenAI] is called, and its answer. *)
Definition at_OpenAI : state :=
  mkState (environ_after env) names_before_model log environ_writes.

Definition OpenAI_reply : reply :=
  extern "langchain" "OpenAI" [] [("temperature", VInt 0)] at_OpenAI.

Definition OpenAI_event : event :=
  ExternCall "langchain" "OpenAI" [] [("temperature", VInt 0)] (environ_after env).

(** The state once the constructor has answered. *)
Definition after_OpenAI (names : gmap string value) : state :=
  mkState (environ_after env) names (log ++ appended OpenAI_reply)
          (environ_writes ++ [OpenAI_event]).

(** The state in which [execute_workflow] is called with handle [llm],
    its arguments and its answer. *)
Definition at_execute_workflow (llm : value) : state :=
  after_OpenAI (<["model" := llm]> names_before_model).

Definition execute_workflow_kwargs (llm : value) : list (string * value) :=
  [("llm", llm); ("prompt_string", VStr prompt_text)].

Definition execute_workflow_reply (llm : value) : reply :=
  extern "lemonai" "execute_workflow" [] (execute_workflow_kwargs llm) (at_execute_workflow llm).

Definition execute_workflow_event (llm : value) : event :=
  ExternCall "lemonai" "execute_workflow" [] (execute_workflow_kwargs llm) (environ_after env).

(** The state when [execute_workflow] has answered. *)
Definition after_execute_workflow (llm : value) : state :=
  mkState (environ_after env) (<["model" := llm]> names_before_model)
          (log ++ appended OpenAI_reply ++ appended (execute_workflow_reply llm))
          (environ_writes ++ [OpenAI_event; execute_workflow_event llm]).

End Run.

(** *** The script written out *)

Section QuickStart.

Variable extern : string -> string -> list value -> list (string * value) -> state -> reply.

Definition import_module (m : string) : M unit := set_global m (VModule m).

Definition from_import (m n : string) : M unit := set_global n (VImported m n).

(** [os.environ[k] = v] for two literals. *)
Definition os_environ_setitem (k v : string) : M unit :=
  os <- get_global "os" ;;
  environ <- getattr os "environ" ;;
  setitem environ (VStr k) (VStr v).

(** [str()] of what a name is bound to. *)
Definition field_of (x : string) : M string := v <- get_global x ;; str_of v.

(** The three code cells as one computation. *)
Definition quick_start : M unit :=
  _ <- import_module "os" ;;
  _ <- from_import "lemonai" "execute_workflow" ;;
  _ <- from_import "langchain" "OpenAI" ;;
  _ <- os_environ_setitem "OPENAI_API_KEY" "*INSERT OPENAI API KEY HERE*" ;;
  _ <- os_environ_setitem "AIRTABLE_ACCESS_TOKEN" "*INSERT AIRTABLE TOKEN HERE*" ;;
  _ <- set_global "hackernews_username" (VStr "*INSERT HACKERNEWS USERNAME HERE*") ;;
  _ <- set_global "airtable_base_id" (VStr "*INSERT BASE ID HERE*") ;;
  _ <- set_global "airtable_table_id" (VStr "*INSERT TABLE ID HERE*") ;;
  hackernews_username <- field_of "hackernews_username" ;;
  airtable_base_id <- field_of "airtable_base_id" ;;
  airtable_table_id <- field_of "airtable_table_id" ;;
  _ <- set_global "prompt"
         (VStr ("Read information from Hackernews for user " +:+ hackernews_username
                +:+ " and then write the results to" +:+ nl
                +:+ "Airtable (baseId: " +:+ airtable_base_id
                +:+ ", tableId: " +:+ airtable_table_id
                +:+ "). Only write the fields " +:+ quoted "username" +:+ ", "
                +:+ quoted "karma" +:+ nl +:+ "and " +:+ quoted "created_at_i"
                +:+ ". Please make sure that Airtable does NOT automatically convert the field types."
                +:+ nl)) ;;
  OpenAI <- get_global "OpenAI" ;;
  model <- call extern OpenAI [] [("temperature", VInt 0)] ;;
  _ <- set_global "model" model ;;
  execute_workflow <- get_global "execute_workflow" ;;
  llm <- get_global "model" ;;
  prompt_string <- get_global "prompt" ;;
  _ <- call extern execute_workflow [] [("llm", llm); ("prompt_string", prompt_string)] ;;
  ret tt.

End QuickStart.

(** *** The shape of the script *)






Definition is_os_environ (e : expr) : bool :=
  match e with
  | EAttr (EName m) a => String.eqb m "os" && String.eqb a "environ"
  | _ => false
  end.








(** The keys a block stores in [os.environ], when they are literals. *)
Definition environ_keys (ss : list simple_stmt) : list expr :=
  flat_map (fun s => match s with
                     | SSetItem obj key _ => if is_os_environ obj then [key] else []
                     | _ => []
                     end) ss.

(** *** Execution, one statement at a time *)

(** A configuration is the statements still to run and the state; a
    step runs the first statement.  A statement that raises has no step. *)
Inductive step (extern : string -> string -> list value -> list (string * value) -> state -> reply) :
  list simple_stmt * state -> list simple_stmt * state -> Prop :=
| step_next s ss st st' :
    exec_stmt extern s st = (inl tt, st') ->
    step extern (s :: ss, st) (ss, st').


Definition is_env_write (ev : event) : bool :=
  match ev with
  | EnvWrite _ _ => true
  | ExternCall _ _ _ _ _ => false
  end.

(** The keys written to the process environment, in order. *)
Definition written_keys (t : list event) : list string :=
  flat_map (fun ev => match ev with EnvWrite k _ => [k] | ExternCall _ _ _ _ _ => [] end) t.

Definition is_call_of (m n : string) (ev : event) : bool :=
  match ev with
  | EnvWrite _ _ => false
  | ExternCall m' n' _ _ _ => String.eqb m m' && String.eqb n n'
  end.

(** A world to run the script in: the constructor hands out a handle,
    and [execute_workflow] returns [None] after the server has logged
    the first run shown in the notebook. *)
Definition sample_extern (m n : string) (args : list value) (kwargs : list (string * value))
    (st : state) : reply :=
  if String.eqb n "OpenAI" then mkReply (inl (VForeign 0)) []
  else mkReply (inl VNone) (firstn 2 Notebook.lemonai_log).

End Script.

(** ** The naming convention of credentials *)

Module Credentials.

(** Markdown cell [c9d082cb]: credentials are stored under
    "{tool name}_{authentication string}". *)
Definition authentication_strings : list string :=
  Notebook.api_key_strings ++ Notebook.token_strings.

Definition credential_name (tool auth : string) : string :=
  tool +:+ "_" +:+ auth.

(** [strip_suffix suf s] is what precedes [suf] in [s] when [s] ends
    with [suf]. *)
Fixpoint strip_suffix (suf s : string) : option string :=
  if String.eqb s suf then Some EmptyString
  else match s with
       | EmptyString => None
       | String c s' => String c <$> strip_suffix suf s'
       end.

(** The tool name of [name] when [name] is "{tool}_{auth}" with a tool
    name that is not empty. *)
Definition tool_of (auth name : string) : option string :=
  match strip_suffix ("_" +:+ auth) name with
  | Some EmptyString => None
  | r => r
  end.

Definition follows_convention (name : string) : bool :=
  existsb (fun auth => bool_decide (is_Some (tool_of auth name))) authentication_strings.

(** The convention in words: a tool name that is not empty, an
    underscore, one of the six authentication strings. *)
Definition Convention (name : string) : Prop :=
  exists tool auth,
    tool <> EmptyString /\ In auth authentication_strings /\ name = credential_name tool auth.

End Credentials.

(** ** The workflow-definition file *)

Module Json.

Inductive json : Type :=
| JNull
| JBool (b : bool)
| JNumber (z : Z)
| JString (s : string)
| JArray (items : list json)
| JObject (members : list (string * json)).

Inductive token : Type :=
| TLBracket | TRBracket | TLBrace | TRBrace | TColon | TComma
| TString (s : string)
| TNumber (z : Z)
| TWord (w : string).

(** Where the lexer is: between tokens, inside a string literal (after
    a backslash or not), after a minus sign, inside an integer, inside a
    bare word. *)
Inductive mode : Type :=
| Outside
| InString (acc : string)
| Escaped (acc : string)
| AfterMinus
| InNumber (negative : bool) (acc : Z)
| InWord (acc : string).

Definition quote : ascii := ascii_of_nat 34.

Definition snoc (s : string) (c : ascii) : string := s +:+ String c EmptyString.

Definition digit (c : ascii) : option Z :=
  let n := Z.of_nat (nat_of_ascii c) in
  if (48 <=? n)%Z && (n <=? 57)%Z then Some (n - 48)%Z else None.

Definition is_letter (c : ascii) : bool :=
  let n := nat_of_ascii c in (97 <=? n)%nat && (n <=? 122)%nat.

Definition char_is (c : ascii) (s : string) : bool :=
  String.eqb (String c EmptyString) s.

(** The character a backslash escape stands for; [\u] is not read. *)
Definition unescape (c : ascii) : option ascii :=
  if Ascii.eqb c quote then Some quote
  else if char_is c "\" then Some c
  else if char_is c "/" then Some c
  else if char_is c "n" then Some (ascii_of_nat 10)
  else if char_is c "t" then Some (ascii_of_nat 9)
  else if char_is c "r" then Some (ascii_of_nat 13)
  else if char_is c "b" then Some (ascii_of_nat 8)
  else if char_is c "f" then Some (ascii_of_nat 12)
  else None.

(** The token a punctuation character is. *)
Definition punctuation (c : ascii) : option token :=
  if char_is c "[" then Some TLBracket
  else if char_is c "]" then Some TRBracket
  else if char_is c "{" then Some TLBrace
  else if char_is c "}" then Some TRBrace
  else if char_is c ":" then Some TColon
  else if char_is c "," then Some TComma
  else None.

Definition signed (negative : bool) (z : Z) : Z := if negative then (- z)%Z else z.

(** The tokens of a text.  Numbers are integers without a leading
    zero: a fraction or an exponent is refused. *)
Fixpoint lex (m : mode) (s : string) : option (list token) :=
  match s with
  | EmptyString =>
      match m with
      | Outside => Some []
      | InString _ | Escaped _ | AfterMinus => None
      | InNumber neg z => Some [TNumber (signed neg z)]
      | InWord w => Some [TWord w]
      end
  | String c s' =>
      let start (_ : unit) : option (list token) :=
        if Ascii.is_space c then lex Outside s'
        else if Ascii.eqb c quote then lex (InString EmptyString) s'
        else if char_is c "-" then lex AfterMinus s'
        else match punctuation c with
             | Some t => cons t <$> lex Outside s'
             | None =>
                 match digit c with
                 | Some d => lex (InNumber false d) s'
                 | None =>
                     if is_letter c then lex (InWord (String c EmptyString)) s' else None
                 end
             end in
      match m with
      | Outside => start tt
      | InString acc =>
          if Ascii.eqb c quote then cons (TString acc) <$> lex Outside s'
          else if char_is c "\" then lex (Escaped acc) s'
          else lex (InString (snoc acc c)) s'
      | Escaped acc =>
          match unescape c with
          | Some c' => lex (InString (snoc acc c')) s'
          | None => None
          end
      | AfterMinus =>
          match digit c with
          | Some d => lex (InNumber true d) s'
          | None => None
          end
      | InNumber neg z =>
          match digit c with
          | Some d => if (z =? 0)%Z then None else lex (InNumber neg (10 * z + d)) s'
          | None =>
              if is_letter c || char_is c "." then None
              else cons (TNumber (signed neg z)) <$> start tt
          end
      | InWord w =>
          if is_letter c then lex (InWord (snoc w c)) s'
          else cons (TWord w) <$> start tt
      end
  end.

Definition word (w : string) : option json :=
  if String.eqb w "true" then Some (JBool true)
  else if String.eqb w "false" then Some (JBool false)
  else if String.eqb w "null" then Some JNull
  else None.

(** A value, the items of an array after its bracket, the members of an
    object after its brace; each with the tokens left over. *)
Fixpoint parse_value (fuel : nat) (ts : list token) : option (json * list token) :=
  match fuel with
  | O => None
  | S fuel' =>
      match ts with
      | TString s :: r => Some (JString s, r)
      | TNumber z :: r => Some (JNumber z, r)
      | TWord w :: r => v ← word w; Some (v, r)
      | TLBracket :: TRBracket :: r => Some (JArray [], r)
      | TLBracket :: r => '(items, r') ← parse_items fuel' r; Some (JArray items, r')
      | TLBrace :: TRBrace :: r => Some (JObject [], r)
      | TLBrace :: r => '(members, r') ← parse_members fuel' r; Some (JObject members, r')
      | _ => None
      end
  end
with parse_items (fuel : nat) (ts : list token) : option (list json * list token) :=
  match fuel with
  | O => None
  | S fuel' =>
      '(v, r) ← parse_value fuel' ts;
      match r with
      | TRBracket :: r' => Some ([v], r')
      | TComma :: r' => '(vs, r'') ← parse_items fuel' r'; Some (v :: vs, r'')
      | _ => None
      end
  end
with parse_members (fuel : nat) (ts : list token) : option (list (string * json) * list token) :=
  match fuel with
  | O => None
  | S fuel' =>
      match ts with
      | TString k :: TColon :: r =>
          '(v, r1) ← parse_value fuel' r;
          match r1 with
          | TRBrace :: r' => Some ([(k, v)], r')
          | TComma :: r' => '(ms, r'') ← parse_members fuel' r'; Some ((k, v) :: ms, r'')
          | _ => None
          end
      | _ => None
      end
  end.

(** A whole text is one value and nothing else. *)
Definition parse (text : string) : option json :=
  ts ← lex Outside text;
  match parse_value (2 * length ts + 2) ts with
  | Some (v, []) => Some v
  | _ => None
  end.

(** The workflow descriptor. *)
Record workflow : Type := mkWorkflow {
  name : string;
  description : string;
  tools : list string
}.

Definition as_string (j : json) : option string :=
  match j with
  | JString s => Some s
  | _ => None
  end.

Definition as_strings (j : json) : option (list string) :=
  match j with
  | JArray items => mapM as_string items
  | _ => None
  end.

Definition field (k : string) (members : list (string * json)) : option json :=
  snd <$> List.find (fun m => String.eqb (fst m) k) members.

(** An object with the three fields and no other. *)
Definition decode_workflow (j : json) : option workflow :=
  match j with
  | JObject members =>
      if (length members =? 3)%nat then
        n ← field "name" members ≫= as_string;
        d ← field "description" members ≫= as_string;
        t ← field "tools" members ≫= as_strings;
        Some (mkWorkflow n d t)
      else None
  | _ => None
  end.

Definition decode (j : json) : option (list workflow) :=
  match j with
  | JArray items => mapM decode_workflow items
  | _ => None
  end.

(** The schema in words: an object whose members are, in some order,
    a string [name], a string [description] and a list of strings
    [tools]; a file is a sequence of such objects. *)
Definition is_workflow (j : json) (w : workflow) : Prop :=
  exists members,
    j = JObject members
    /\ Permutation members
         [ ("name", JString (name w));
           ("description", JString (description w));
           ("tools", JArray (map JString (tools w))) ].

Definition is_workflow_file (j : json) (ws : list workflow) : Prop :=
  exists items, j = JArray items /\ Forall2 is_workflow items ws.

(** The text of the example: its lines joined by newlines. *)
Definition lemonai_json_text : string := String.concat nl Notebook.lemonai_json.

(** The workflows the example defines. *)
Definition lemonai_workflows : list workflow :=
  default [] (parse lemonai_json_text ≫= decode).

End Json.

(** ** The decision log *)

Module Log.

(** *** Splitting a line: [str.split(sep)] for a separator that is not empty *)

(** [skip] characters of the separator are still to be passed over;
    [cur] is the field read so far. *)
Fixpoint split_go (sep : string) (skip : nat) (cur : string) (s : string) : list string :=
  match s with
  | EmptyString => [cur]
  | String c s' =>
      match skip with
      | S k => split_go sep k cur s'
      | O =>
          if String.prefix sep s
          then cur :: split_go sep (String.length sep - 1) EmptyString s'
          else split_go sep 0 (cur +:+ String c EmptyString) s'
      end
  end.

Definition split (sep s : string) : list string := split_go sep 0 EmptyString s.


(** *** Reading numbers *)

Definition digit (c : ascii) : option N :=
  let n := N_of_ascii c in
  if (48 <=? n)%N && (n <=? 57)%N then Some (n - 48)%N else None.

Definition hex_digit (c : ascii) : option N :=
  let n := N_of_ascii c in
  if (48 <=? n)%N && (n <=? 57)%N then Some (n - 48)%N
  else if (97 <=? n)%N && (n <=? 102)%N then Some (n - 87)%N
  else if (65 <=? n)%N && (n <=? 70)%N then Some (n - 55)%N
  else None.

(** Exactly [n] digits in base [base], appended to [acc]. *)
Fixpoint number (read : ascii -> option N) (base : N) (n : nat) (acc : N) (s : string)
  : option (N * string) :=
  match n with
  | O => Some (acc, s)
  | S n' =>
      match s with
      | EmptyString => None
      | String c s' => d ← read c; number read base n' (base * acc + d)%N s'
      end
  end.

Definition decimal (n : nat) (s : string) : option (N * string) := number digit 10 n 0 s.

Definition expect (c : string) (s : string) : option string :=
  match s with
  | EmptyString => None
  | String c' s' => if String.eqb (String c' EmptyString) c then Some s' else None
  end.

(** *** Timestamps *)

(** A local date and time with its offset from UTC in minutes. *)
Record datetime : Type := mkDatetime {
  year : N; month : N; day : N;
  hour : N; minute : N; second : N; microsecond : N;
  utc_offset : Z
}.

Definition leap_year (y : N) : bool :=
  ((y mod 4 =? 0) && negb (y mod 100 =? 0) || (y mod 400 =? 0))%N.

Definition days_in_month (y m : N) : N :=
  if (m =? 2)%N then (if leap_year y then 29 else 28)%N
  else if ((m =? 4) || (m =? 6) || (m =? 9) || (m =? 11))%N then 30%N
  else 31%N.

Definition valid_datetime (t : datetime) : bool :=
  ((1 <=? month t) && (month t <=? 12)
   && (1 <=? day t) && (day t <=? days_in_month (year t) (month t))
   && (hour t <=? 23) && (minute t <=? 59) && (second t <=? 59))%N
  && (Z.abs (utc_offset t) <? 24 * 60)%Z.

(** An offset [+hhmm], [-hhmm], [+hh:mm] or [-hh:mm]. *)
Definition parse_offset (s : string) : option (Z * string) :=
  match s with
  | EmptyString => None
  | String c r =>
      sign ← (if String.eqb (String c EmptyString) "+" then Some 1%Z
              else if String.eqb (String c EmptyString) "-" then Some (-1)%Z
              else None);
      '(h, r) ← decimal 2 r;
      let r := default r (expect ":" r) in
      '(m, r) ← decimal 2 r;
      if (m <=? 59)%N then Some ((sign * (Z.of_N h * 60 + Z.of_N m))%Z, r) else None
  end.

(** [YYYY-MM-DDThh:mm:ss.ffffff] followed by the offset. *)
Definition parse_datetime (s : string) : option datetime :=
  '(Y, r) ← decimal 4 s;
  r ← expect "-" r;
  '(M, r) ← decimal 2 r;
  r ← expect "-" r;
  '(D, r) ← decimal 2 r;
  r ← expect "T" r;
  '(h, r) ← decimal 2 r;
  r ← expect ":" r;
  '(m, r) ← decimal 2 r;
  r ← expect ":" r;
  '(sec, r) ← decimal 2 r;
  r ← expect "." r;
  '(us, r) ← decimal 6 r;
  '(off, r) ← parse_offset r;
  let t := mkDatetime Y M D h m sec us off in
  match r with
  | EmptyString => if valid_datetime t then Some t else None
  | _ => None
  end.

(** Days from 1970-01-01 to a date of the proleptic Gregorian calendar. *)
Definition days_from_civil (y m d : Z) : Z :=
  let y' := (if m <=? 2 then y - 1 else y)%Z in
  let era := (y' / 400)%Z in
  let yoe := (y' - era * 400)%Z in
  let mp := ((m + 9) mod 12)%Z in
  let doy := ((153 * mp + 2) / 5 + d - 1)%Z in
  let doe := (yoe * 365 + yoe / 4 - yoe / 100 + doy)%Z in
  (era * 146097 + doe - 719468)%Z.

(** The instant a timestamp denotes: microseconds since 1970-01-01T00:00:00Z. *)
Definition instant (t : datetime) : Z :=
  let days := days_from_civil (Z.of_N (year t)) (Z.of_N (month t)) (Z.of_N (day t)) in
  let minutes := ((days * 24 + Z.of_N (hour t)) * 60 + Z.of_N (minute t) - utc_offset t)%Z in
  ((minutes * 60 + Z.of_N (second t)) * 1000000 + Z.of_N (microsecond t))%Z.

(** *** Run identifiers *)

(** A UUID is a number of 128 bits, written as 8-4-4-4-12 hexadecimal digits. *)
Definition parse_uuid (s : string) : option N :=
  '(u, r) ← number hex_digit 16 8 0 s;
  r ← expect "-" r;
  '(u, r) ← number hex_digit 16 4 u r;
  r ← expect "-" r;
  '(u, r) ← number hex_digit 16 4 u r;
  r ← expect "-" r;
  '(u, r) ← number hex_digit 16 4 u r;
  r ← expect "-" r;
  '(u, r) ← number hex_digit 16 12 u r;
  match r with
  | EmptyString => Some u
  | _ => None
  end.


(** *** Records *)

Record record : Type := mkRecord {
  timestamp : datetime;
  run_identifier : N;
  tool_name : string
}.

(** [<timestamp> - <run_identifier> - <tool_name>] *)
Definition parse_line (line : string) : option record :=
  match split " - " line with
  | [ts; id; tool] =>
      t ← parse_datetime ts;
      u ← parse_uuid id;
      if String.eqb tool EmptyString then None else Some (mkRecord t u tool)
  | _ => None
  end.

Definition parse_log (lines : list string) : option (list record) := mapM parse_line lines.

(** *** Runs *)

(** The run identifiers of a log, each once, in order of first occurrence. *)
Definition run_identifiers (rs : list record) : list N :=
  remove_dups (map run_identifier rs).

(** The tools a run used, in file order. *)
Definition tools_of_run (id : N) (rs : list record) : list string :=
  map tool_name (filter (fun r => run_identifier r = id) rs).

(** Each identifier either repeats on the next line or never comes back. *)
Fixpoint contiguous (ids : list N) : bool :=
  match ids with
  | [] => true
  | x :: rest =>
      match rest with
      | [] => true
      | y :: _ => (bool_decide (x = y) || bool_decide (x ∉ rest)) && contiguous rest
      end
  end.

(** Contiguity in words: every line between two lines of a run belongs
    to that run. *)
Definition Between (ids : list N) : Prop :=
  forall i j k a, i <= j -> j <= k ->
    ids !! i = Some a -> ids !! k = Some a -> ids !! j = Some a.

(** Maximal blocks of consecutive lines with the same run identifier. *)
Fixpoint group_runs (rs : list record) : list (list record) :=
  match rs with
  | [] => []
  | r :: rs' =>
      match group_runs rs' with
      | (r' :: g) :: gs =>
          if bool_decide (run_identifier r = run_identifier r')
          then (r :: r' :: g) :: gs
          else [r] :: (r' :: g) :: gs
      | _ => [[r]]
      end
  end.

(** The records of the example log. *)
Definition example : list record := default [] (parse_log Notebook.lemonai_log).

(** Each entry is later than the one before it. *)
Definition increasing (zs : list Z) : Prop :=
  forall i a b, zs !! i = Some a -> zs !! S i = Some b -> (a < b)%Z.

End Log.

(** ** The code cells one by one *)

Module Cells.
Import Py Script.

(** Cell [5318715d], cell [a370d999] and cell [38d158e7] as blocks: a
    kernel runs one cell at a time, in whatever order it is asked to. *)
Definition imports_cell : list simple_stmt :=
  default [] (straight_line Notebook.cell_5318715d).

Definition credentials_cell : list simple_stmt :=
  default [] (straight_line Notebook.cell_a370d999).

Definition quick_start_cell : list simple_stmt :=
  default [] (straight_line Notebook.cell_38d158e7).

(** The text of the f-string of cell [38d158e7] for a user name, a base
    id and a table id. *)
Definition prompt_for (username base_id table_id : string) : string :=
  "Read information from Hackernews for user " +:+ username
  +:+ " and then write the results to" +:+ nl
  +:+ "Airtable (baseId: " +:+ base_id +:+ ", tableId: " +:+ table_id
  +:+ "). Only write the fields " +:+ quoted "username" +:+ ", " +:+ quoted "karma" +:+ nl
  +:+ "and " +:+ quoted "created_at_i"
  +:+ ". Please make sure that Airtable does NOT automatically convert the field types." +:+ nl.


(** The namespace after the import cell, over [names]. *)
Definition with_imports (names : gmap string value) : gmap string value :=
  <["OpenAI" := VImported "langchain" "OpenAI"]>
    (<["execute_workflow" := VImported "lemonai" "execute_workflow"]>
      (<["os" := VModule "os"]> names)).

(** A kernel in which the three identifiers have been filled in. *)
Definition filled_in : state :=
  mkState ∅ (<["airtable_table_id" := VStr "tbl1"]>
               (<["airtable_base_id" := VStr "app1"]>
                  (<["hackernews_username" := VStr "pg"]> ∅))) [] [].

(** A world in which the constructor [OpenAI] raises. *)
Definition failing_extern (msg : string) (m n : string) (args : list value)
    (kwargs : list (string * value)) (st : state) : reply :=
  if String.eqb n "OpenAI" then mkReply (inr msg) [] else mkReply (inl VNone) [].

End Cells.

(** * Properties *)

(** ** Running the script *)

Import Py Script.

Lemma exec_block_app extern (a b : list simple_stmt) (st : state) :
  exec_block extern (a ++ b) st =
  match exec_block extern a st with
  | (inl _, st') => exec_block extern b st'
  | (inr e, st') => (inr e, st')
  end.
Proof.
  revert st. induction a as [|s a IH]; intros st; simpl.
  - reflexivity.
  - unfold bind. destruct (exec_stmt extern s st) as [[[]|e] st']; [apply IH | reflexivity].
Qed.

Lemma preamble_runs extern env log :
  exec_block extern preamble (fresh env log) = (inl tt, at_OpenAI env log).
Proof. reflexivity. Qed.

Lemma lookup_OpenAI : names_before_model !! "OpenAI" = Some (VImported "langchain" "OpenAI").
Proof. reflexivity. Qed.

Lemma lookup_execute_workflow llm :
  <["model" := llm]> names_before_model !! "execute_workflow"
  = Some (VImported "lemonai" "execute_workflow").
Proof. reflexivity. Qed.

Lemma lookup_model llm : <["model" := llm]> names_before_model !! "model" = Some llm.
Proof. reflexivity. Qed.

Lemma lookup_prompt llm :
  <["model" := llm]> names_before_model !! "prompt" = Some (VStr prompt_text).
Proof. reflexivity. Qed.

Lemma run_unfold extern env log :
  run extern env log =
  match result (OpenAI_reply extern env log) with
  | inr msg => (inr (ExternalError msg), after_OpenAI extern env log names_before_model)
  | inl llm =>
      match result (execute_workflow_reply extern env log llm) with
      | inl _ => (inl tt, after_execute_workflow extern env log llm)
      | inr msg => (inr (ExternalError msg), after_execute_workflow extern env log llm)
      end
  end.
Proof.
  unfold run.
  change (straight_line Notebook.code) with
    (Some (preamble ++ [SAssign "model" (ECall (EName "OpenAI") [] [ ("temperature", EInt 0) ]);
      SExpr Notebook.execute_workflow_call])).
  cbv beta iota.
  rewrite exec_block_app, preamble_runs.
  destruct (result (OpenAI_reply extern env log)) as [llm|msg] eqn:E1;
    [destruct (result (execute_workflow_reply extern env log llm)) as [v|msg] eqn:E2|];
    unfold OpenAI_reply, at_OpenAI in E1;
    try unfold execute_workflow_reply, at_execute_workflow, after_OpenAI, OpenAI_reply,
          execute_workflow_kwargs, OpenAI_event, at_OpenAI in E2;
    cbv beta iota zeta delta [exec_block exec_stmt eval bind ret get_global call call_extern
       set_global Notebook.execute_workflow_call at_OpenAI globals environ log_file trace];
    rewrite lookup_OpenAI; cbv beta iota; rewrite E1; cbv beta iota;
    [ | | reflexivity ];
    rewrite lookup_execute_workflow; cbv beta iota delta [globals];
    rewrite lookup_model; cbv beta iota delta [globals];
    rewrite lookup_prompt; cbv beta iota delta [globals environ log_file trace];
    rewrite E2; cbv beta iota;
    unfold after_execute_workflow, execute_workflow_reply, at_execute_workflow, after_OpenAI,
      OpenAI_reply, at_OpenAI, execute_workflow_event, OpenAI_event, execute_workflow_kwargs;
    rewrite <- !app_assoc; reflexivity.
Qed.

Lemma straight_line_code : straight_line Notebook.code = Some script.
Proof. reflexivity. Qed.

Lemma run_script extern env log :
  run extern env log = exec_block extern script (fresh env log).
Proof. reflexivity. Qed.

(** *** Bare string literals do nothing *)



(** *** The script and its statements agree *)

Ltac run_both :=
  cbv beta iota zeta delta
    [exec_block exec_stmt eval bind ret raise get_global set_global set_environ str_of
     getattr setitem call call_extern quick_start import_module from_import
     os_environ_setitem field_of globals environ log_file trace
     String.eqb Ascii.eqb Bool.eqb andb].

Ltac resolve_lookup :=
  repeat first [ rewrite lookup_insert_eq | rewrite lookup_insert_ne by discriminate ].

Ltac normalize_strings :=
  repeat match goal with
         | |- context [String.append ?a ?b] =>
             let s := eval vm_compute in (String.append a b) in
             change (String.append a b) with s
         end.

Ltac split_on_reply :=
  match goal with
  | |- context [result (?f ?m ?n ?a ?k ?s)] => destruct (result (f m n a k s))
  end.


(** *** Every execution is finite *)

Lemma step_shortens extern c c' : step extern c c' -> length (fst c') < length (fst c).
Proof. destruct 1. simpl. lia. Qed.


Lemma nsteps_bound extern n c c' :
  nsteps (step extern) n c c' -> n + length (fst c') <= length (fst c).
Proof.
  induction 1 as [|n x y z Hxy _ IH]; [lia|].
  apply step_shortens in Hxy. lia.
Qed.

(** The block function agrees with the steps: a block that finishes
    has taken one step for each of its statements. *)
Lemma exec_block_steps extern ss st st' :
  exec_block extern ss st = (inl tt, st') ->
  nsteps (step extern) (length ss) (ss, st) ([], st').
Proof.
  revert st. induction ss as [|s ss IH]; intros st H; simpl in *.
  - injection H as <-. constructor.
  - unfold bind in H. destruct (exec_stmt extern s st) as [[[]|e] st1] eqn:E; [|discriminate].
    econstructor; [constructor; exact E | apply IH, H].
Qed.

(** *** What a run leaves behind *)

Lemma run_trace extern env log :
  trace (snd (run extern env log)) =
  environ_writes ++ OpenAI_event env ::
    match result (OpenAI_reply extern env log) with
    | inl llm => [execute_workflow_event env llm]
    | inr _ => []
    end.
Proof.
  rewrite run_unfold.
  destruct (result (OpenAI_reply extern env log)) as [llm|msg]; [|reflexivity].
  destruct (result (execute_workflow_reply extern env log llm)); reflexivity.
Qed.

Lemma run_environ extern env log :
  environ (snd (run extern env log)) = environ_after env.
Proof.
  rewrite run_unfold.
  destruct (result (OpenAI_reply extern env log)) as [llm|msg]; [|reflexivity].
  destruct (result (execute_workflow_reply extern env log llm)); reflexivity.
Qed.

Lemma run_globals extern env log :
  globals (snd (run extern env log)) =
  match result (OpenAI_reply extern env log) with
  | inl llm => <["model" := llm]> names_before_model
  | inr _ => names_before_model
  end.
Proof.
  rewrite run_unfold.
  destruct (result (OpenAI_reply extern env log)) as [llm|msg]; [|reflexivity].
  destruct (result (execute_workflow_reply extern env log llm)); reflexivity.
Qed.

Lemma run_log_file extern env log :
  log_file (snd (run extern env log)) =
  log ++ appended (OpenAI_reply extern env log) ++
    match result (OpenAI_reply extern env log) with
    | inl llm => appended (execute_workflow_reply extern env log llm)
    | inr _ => []
    end.
Proof.
  rewrite run_unfold.
  destruct (result (OpenAI_reply extern env log)) as [llm|msg].
  - destruct (result (execute_workflow_reply extern env log llm)); reflexivity.
  - simpl. rewrite app_nil_r. reflexivity.
Qed.

Lemma run_outcome extern env log :
  fst (run extern env log) =
  match result (OpenAI_reply extern env log) with
  | inl llm =>
      match result (execute_workflow_reply extern env log llm) with
      | inl _ => inl tt
      | inr msg => inr (ExternalError msg)
      end
  | inr msg => inr (ExternalError msg)
  end.
Proof.
  rewrite run_unfold.
  destruct (result (OpenAI_reply extern env log)) as [llm|msg]; [|reflexivity].
  destruct (result (execute_workflow_reply extern env log llm)); reflexivity.
Qed.

Lemma environ_after_OPENAI env :
  environ_after env !! OPENAI_API_KEY = Some "*INSERT OPENAI API KEY HERE*".
Proof.
  unfold environ_after. rewrite lookup_insert_ne by discriminate. apply lookup_insert_eq.
Qed.

Lemma environ_after_AIRTABLE env :
  environ_after env !! AIRTABLE_ACCESS_TOKEN = Some "*INSERT AIRTABLE TOKEN HERE*".
Proof. unfold environ_after. apply lookup_insert_eq. Qed.


(** *** Calls leave the notebook *)







(** C10. Wherever a run calls [execute_workflow], the two writes of
    [OPENAI_API_KEY] and [AIRTABLE_ACCESS_TOKEN] are earlier events of
    the run, the environment the call is made in holds both entries, and
    the run writes no other environment variable at any point. *)
Theorem credentials_set_before_execute_workflow extern env log i args kwargs e :
  trace (snd (run extern env log)) !! i
    = Some (ExternCall "lemonai" "execute_workflow" args kwargs e) ->
  (exists j1 j2 v1 v2,
      j1 < i /\ j2 < i
      /\ trace (snd (run extern env log)) !! j1 = Some (EnvWrite OPENAI_API_KEY v1)
      /\ trace (snd (run extern env log)) !! j2 = Some (EnvWrite AIRTABLE_ACCESS_TOKEN v2))
  /\ is_Some (e !! OPENAI_API_KEY)
  /\ is_Some (e !! AIRTABLE_ACCESS_TOKEN)
  /\ written_keys (trace (snd (run extern env log))) = [OPENAI_API_KEY; AIRTABLE_ACCESS_TOKEN].
Proof.
  rewrite run_trace. intros Hi.
  assert (Hk : written_keys
            (environ_writes ++ OpenAI_event env ::
               match result (OpenAI_reply extern env log) with
               | inl llm => [execute_workflow_event env llm]
               | inr _ => []
               end) = [OPENAI_API_KEY; AIRTABLE_ACCESS_TOKEN])
    by (destruct (result (OpenAI_reply extern env log)); reflexivity).
  destruct (result (OpenAI_reply extern env log)) as [llm|msg];
    do 3 (destruct i as [|i]; [discriminate Hi|]).
  - destruct i as [|i]; [|destruct i; discriminate Hi].
    injection Hi as _ _ <-.
    split.
    { exists 0, 1. do 2 eexists.
      split; [lia|]. split; [lia|]. split; reflexivity. }
    split; [rewrite environ_after_OPENAI; eauto|].
    split; [rewrite environ_after_AIRTABLE; eauto|].
    exact Hk.
  - destruct i; discriminate Hi.
Qed.

Lemma credentials_set_before_execute_workflow_witness :
  trace (snd (run sample_extern ∅ [])) !! 3
    = Some (ExternCall "lemonai" "execute_workflow" []
              [("llm", VForeign 0); ("prompt_string", VStr prompt_text)] (environ_after ∅))
  /\ is_Some (environ_after ∅ !! OPENAI_API_KEY)
  /\ is_Some (environ_after ∅ !! AIRTABLE_ACCESS_TOKEN).
Proof.
  assert (H : trace (snd (run sample_extern ∅ [])) !! 3
    = Some (ExternCall "lemonai" "execute_workflow" []
              [("llm", VForeign 0); ("prompt_string", VStr prompt_text)] (environ_after ∅)))
    by reflexivity.
  split; [exact H|].
  pose proof (credentials_set_before_execute_workflow sample_extern ∅ [] 3 _ _ _ H) as W.
  split; [exact (proj1 (proj2 W)) | exact (proj1 (proj2 (proj2 W)))].
Defined.

(** *** Credential names *)

Import Credentials.

Lemma append_cons c (p s : string) : String c p +:+ s = String c (p +:+ s).
Proof. reflexivity. Qed.

Lemma length_append (p s : string) :
  String.length (p +:+ s) = String.length p + String.length s.
Proof.
  induction p as [|c p IH]; [reflexivity|].
  rewrite append_cons. simpl. rewrite IH. reflexivity.
Qed.

Lemma strip_suffix_sound suf s p : strip_suffix suf s = Some p -> s = p +:+ suf.
Proof.
  revert p. induction s as [|c s IH]; intros p; cbn [strip_suffix].
  - destruct (String.eqb_spec EmptyString suf) as [<-|]; [|discriminate].
    intros [= <-]. reflexivity.
  - destruct (String.eqb_spec (String c s) suf) as [<-|_].
    + intros [= <-]. reflexivity.
    + destruct (strip_suffix suf s) as [p'|]; [|discriminate].
      cbn. intros [= <-]. rewrite append_cons, <- (IH p' eq_refl). reflexivity.
Qed.

Lemma strip_suffix_complete suf p : strip_suffix suf (p +:+ suf) = Some p.
Proof.
  induction p as [|c p IH].
  - change (EmptyString +:+ suf) with suf.
    destruct suf; simpl; [reflexivity|].
    rewrite Ascii.eqb_refl, String.eqb_refl. reflexivity.
  - rewrite append_cons. cbn [strip_suffix].
    destruct (String.eqb_spec (String c (p +:+ suf)) suf) as [E|_].
    + apply (f_equal String.length) in E. simpl in E. rewrite length_append in E. lia.
    + rewrite IH. reflexivity.
Qed.

(** The test agrees with the convention as the notebook words it. *)
Lemma follows_convention_spec name :
  follows_convention name = true <-> Convention name.
Proof.
  unfold follows_convention, Convention. rewrite existsb_exists. split.
  - intros (auth & Hin & Hb). apply bool_decide_eq_true in Hb as [tool Ht].
    unfold tool_of in Ht.
    destruct (strip_suffix ("_" +:+ auth) name) as [p|] eqn:E; [|discriminate].
    apply strip_suffix_sound in E.
    destruct p as [|c p]; [discriminate|].
    exists (String c p), auth. split; [discriminate|]. split; [exact Hin | exact E].
  - intros (tool & auth & Hne & Hin & ->).
    exists auth. split; [exact Hin|]. apply bool_decide_eq_true.
    unfold tool_of, credential_name. rewrite strip_suffix_complete.
    destruct tool; [contradiction|]. eauto.
Qed.

Example convention_accepts :
  map follows_convention ["BING_SUBSCRIPTION_KEY"; "X_SECRET_TOKEN"; "A_B_ACCESS_KEY"]
  = [true; true; true].
Proof. reflexivity. Qed.

Example convention_rejects :
  map follows_convention ["API_KEY"; "_API_KEY"; "OPENAI_KEY"; "OPENAI_API_KEY_"; "openai_api_key"]
  = [false; false; false; false; false].
Proof. reflexivity. Qed.

(** C2. Every key a run writes to the process environment, all of them
    before [execute_workflow] is called, is "{tool}_{auth}" with a tool
    name that is not empty and [auth] one of API_KEY, SECRET_KEY,
    SUBSCRIPTION_KEY, ACCESS_KEY, ACCESS_TOKEN, SECRET_TOKEN.  The keys
    are the two literals of cell [a370d999]: OPENAI_API_KEY is the tool
    OPENAI with API_KEY, AIRTABLE_ACCESS_TOKEN is the tool AIRTABLE with
    ACCESS_TOKEN. *)
Theorem credential_names_follow_convention extern env log :
  authentication_strings
    = ["API_KEY"; "SECRET_KEY"; "SUBSCRIPTION_KEY"; "ACCESS_KEY"; "ACCESS_TOKEN"; "SECRET_TOKEN"]
  /\ environ_keys script = [EStr "OPENAI_API_KEY"; EStr "AIRTABLE_ACCESS_TOKEN"]
  /\ written_keys (trace (snd (run extern env log))) = ["OPENAI_API_KEY"; "AIRTABLE_ACCESS_TOKEN"]
  /\ Forall Convention (written_keys (trace (snd (run extern env log))))
  /\ Forall (fun k => follows_convention k = true) (written_keys (trace (snd (run extern env log))))
  /\ "OPENAI_API_KEY" = credential_name "OPENAI" "API_KEY"
  /\ "AIRTABLE_ACCESS_TOKEN" = credential_name "AIRTABLE" "ACCESS_TOKEN"
  /\ exists made, trace (snd (run extern env log)) = environ_writes ++ made
                  /\ Forall (fun ev => is_env_write ev = false) made.
Proof.
  assert (Hk : written_keys (trace (snd (run extern env log)))
               = ["OPENAI_API_KEY"; "AIRTABLE_ACCESS_TOKEN"]).
  { rewrite run_trace. destruct (result (OpenAI_reply extern env log)); reflexivity. }
  split; [reflexivity|]. split; [reflexivity|]. split; [exact Hk|].
  rewrite Hk.
  assert (Hb : Forall (fun k => follows_convention k = true)
                      ["OPENAI_API_KEY"; "AIRTABLE_ACCESS_TOKEN"])
    by (repeat constructor).
  split; [eapply Forall_impl; [exact Hb | intros k; apply follows_convention_spec]|].
  split; [exact Hb|]. split; [reflexivity|]. split; [reflexivity|].
  rewrite run_trace. eexists. split; [reflexivity|].
  destruct (result (OpenAI_reply extern env log)); repeat constructor.
Qed.

(** *** Splitting and joining *)

Import Log.











(** *** Contiguous runs *)

Lemma Between_tail x ids : Between (x :: ids) -> Between ids.
Proof.
  intros H i j k a Hij Hjk Hi Hk.
  exact (H (S i) (S j) (S k) a ltac:(lia) ltac:(lia) Hi Hk).
Qed.

Lemma contiguous_Between ids : contiguous ids = true <-> Between ids.
Proof.
  induction ids as [|x rest IH].
  - split; [|reflexivity]. intros _ i j k a _ _ Hi. discriminate Hi.
  - destruct rest as [|y rest'].
    + split; [|reflexivity]. intros _ i j k a Hij Hjk Hi Hk.
      destruct k; [|discriminate Hk]. replace j with 0 by lia. exact Hk.
    + cbn [contiguous]. rewrite andb_true_iff, orb_true_iff, !bool_decide_eq_true.
      split.
      * intros [Hx Hc]. apply IH in Hc. intros i j k a Hij Hjk Hi Hk.
        destruct i as [|i].
        -- injection Hi as <-.
           destruct k as [|k]; [replace j with 0 by lia; reflexivity|].
           assert (x = y) as <-.
           { destruct Hx as [?|Hx]; [assumption|].
             exfalso. apply Hx. eapply list_elem_of_lookup_2. exact Hk. }
           destruct j as [|j]; [reflexivity|].
           exact (Hc 0 j k x ltac:(lia) ltac:(lia) eq_refl Hk).
        -- destruct j as [|j]; [lia|]. destruct k as [|k]; [lia|].
           exact (Hc i j k a ltac:(lia) ltac:(lia) Hi Hk).
      * intros H. split; [|apply IH; exact (Between_tail _ _ H)].
        destruct (decide (x = y)) as [|Hne]; [left; assumption|right].
        intros Hin. apply list_elem_of_lookup_1 in Hin as [m Hm].
        pose proof (H 0 1 (S m) x ltac:(lia) ltac:(lia) eq_refl Hm) as H1.
        injection H1 as ->. congruence.
Qed.

(** Once a line differs from the line before it, no identifier seen
    before that line comes back on it or after it. *)
Lemma Between_no_return ids i j k x :
  Between ids -> i < j -> j <= k ->
  ids !! j <> ids !! (j - 1) ->
  ids !! i = Some x -> ids !! k <> Some x.
Proof.
  intros H Hij Hjk Hnew Hi Hk. apply Hnew.
  rewrite (H i j k x ltac:(lia) ltac:(lia) Hi Hk).
  rewrite (H i (j - 1) k x ltac:(lia) ltac:(lia) Hi Hk). reflexivity.
Qed.

Lemma group_runs_shape rs :
  Forall (fun g => g <> []) (group_runs rs) /\ concat (group_runs rs) = rs.
Proof.
  induction rs as [|r rs [IHne IHc]]; [split; [constructor | reflexivity]|].
  cbn [group_runs].
  destruct (group_runs rs) as [|[|r' g] gs].
  - simpl in IHc. subst rs. split; [repeat constructor; discriminate | reflexivity].
  - inversion IHne; congruence.
  - destruct (bool_decide (run_identifier r = run_identifier r')).
    + split.
      * inversion IHne; subst. constructor; [discriminate | assumption].
      * simpl in *. rewrite IHc. reflexivity.
    + split.
      * constructor; [discriminate | assumption].
      * simpl in *. rewrite IHc. reflexivity.
Qed.

(** *** Timestamps in order *)

Lemma increasing_tail z zs : increasing (z :: zs) -> increasing zs.
Proof. intros H i a b Ha Hb. exact (H (S i) a b Ha Hb). Qed.

(** Entries that increase line by line increase over any distance. *)
Lemma increasing_all zs i j a b :
  increasing zs -> i < j -> zs !! i = Some a -> zs !! j = Some b -> (a < b)%Z.
Proof.
  intros H Hij. revert b. induction Hij as [|j Hij IH]; intros b Ha Hb.
  - exact (H i a b Ha Hb).
  - destruct (zs !! j) as [c|] eqn:Hc.
    + pose proof (IH c Ha eq_refl). pose proof (H j c b Hc Hb). lia.
    + apply lookup_ge_None in Hc. apply lookup_lt_Some in Hb. lia.
Qed.

(** On one day and at one offset, a later time of day is a later instant. *)
Lemma instant_same_day t1 t2 :
  year t1 = year t2 -> month t1 = month t2 -> day t1 = day t2 ->
  utc_offset t1 = utc_offset t2 ->
  (microsecond t1 < 1000000)%N -> (microsecond t2 < 1000000)%N ->
  ((Z.of_N (hour t1) * 60 + Z.of_N (minute t1)) * 60 + Z.of_N (second t1)
   < (Z.of_N (hour t2) * 60 + Z.of_N (minute t2)) * 60 + Z.of_N (second t2))%Z ->
  (instant t1 < instant t2)%Z.
Proof.
  unfold instant. intros -> -> -> -> H1 H2 H. lia.
Qed.

(** *** The readers on small inputs *)

Example split_like_python :
  split " - " "a - b" = ["a"; "b"]
  /\ split " - " "a" = ["a"]
  /\ split " - " EmptyString = [EmptyString]
  /\ split " - " "a -  - b" = ["a"; EmptyString; "b"]
  /\ split "--" "a---b" = ["a"; "-b"].
Proof. repeat split. Qed.

Example days_from_civil_epoch :
  days_from_civil 1970 1 1 = 0%Z
  /\ days_from_civil 1969 12 31 = (-1)%Z
  /\ days_from_civil 2000 3 1 = (days_from_civil 2000 2 29 + 1)%Z
  /\ days_from_civil 2023 6 26 = 19534%Z.
Proof. repeat split. Qed.

Example parse_datetime_rejects :
  parse_datetime "2023-02-30T11:50:27.708785+0100" = None      (* no such day *)
  /\ parse_datetime "2023-06-26T11:50:27.708785" = None        (* no offset *)
  /\ parse_datetime "2023-06-26 11:50:27.708785+0100" = None   (* no T *)
  /\ parse_datetime "2023-06-26T24:00:00.000000+0100" = None.  (* no such hour *)
Proof. repeat split. Qed.

Example parse_datetime_offsets :
  utc_offset <$> parse_datetime "2023-06-26T11:50:27.708785+01:00" = Some 60%Z
  /\ utc_offset <$> parse_datetime "2024-02-29T23:59:59.000000-0530" = Some (-330)%Z.
Proof. repeat split. Qed.

Example parse_uuid_rejects :
  parse_uuid "b5f91c59848745c2800a156eac0c7dae" = None
  /\ parse_uuid "g5f91c59-8487-45c2-800a-156eac0c7dae" = None
  /\ parse_uuid "b5f91c59-8487-45c2-800a-156eac0c7dae0" = None.
Proof. repeat split. Qed.

Example parse_line_rejects :
  parse_line "2023-06-26T11:50:27.708785+0100 - b5f91c59-8487-45c2-800a-156eac0c7dae" = None
  /\ parse_line "2023-06-26T11:50:27.708785+0100 - b5f91c59-8487-45c2-800a-156eac0c7dae - a - b"
     = None
  /\ parse_line "yesterday - b5f91c59-8487-45c2-800a-156eac0c7dae - hackernews-get-user" = None.
Proof. repeat split. Qed.

Example contiguous_examples :
  contiguous [1; 1; 2; 2]%N = true
  /\ contiguous [1; 2; 3]%N = true
  /\ contiguous [1; 2; 1]%N = false
  /\ contiguous [1; 2; 2; 3; 1]%N = false.
Proof. repeat split. Qed.

(** The run identifiers of a log are the identifiers of its lines. *)
Lemma run_identifiers_spec id rs :
  id ∈ run_identifiers rs <-> exists r, r ∈ rs /\ run_identifier r = id.
Proof.
  unfold run_identifiers. rewrite elem_of_remove_dups, list_elem_of_fmap.
  split; intros (r & H1 & H2); exists r; auto.
Qed.

(** *** The example log *)


(** C6. In the example log the lines of a run are contiguous: every
    line between two lines with the same run identifier carries that
    identifier, so once a line differs from the line before it no
    identifier seen earlier comes back.  The log is two blocks of two
    lines, with different identifiers. *)
Theorem example_runs_are_contiguous :
  parse_log Notebook.lemonai_log = Some example
  /\ contiguous (map run_identifier example) = true
  /\ Between (map run_identifier example)
  /\ (forall i j k x,
        i < j -> j <= k ->
        map run_identifier example !! j <> map run_identifier example !! (j - 1) ->
        map run_identifier example !! i = Some x ->
        map run_identifier example !! k <> Some x)
  /\ map (map run_identifier) (group_runs example)
     = [ [241883724154635866804638490512293920174; 241883724154635866804638490512293920174];
         [126268226918087426107378774108243750301; 126268226918087426107378774108243750301] ]%N
  /\ concat (group_runs example) = example.
Proof.
  assert (Hc : contiguous (map run_identifier example) = true) by reflexivity.
  pose proof (proj1 (contiguous_Between _) Hc) as Hb.
  split; [reflexivity|]. split; [exact Hc|]. split; [exact Hb|].
  split; [intros i j k x; apply Between_no_return; exact Hb|].
  split; [reflexivity|]. apply group_runs_shape.
Qed.

(** C7. In the example log each timestamp denotes a later instant than
    the timestamp of the line before it, and so a later instant than
    that of every earlier line. *)
Theorem example_timestamps_increase :
  parse_log Notebook.lemonai_log = Some example
  /\ map (fun r => instant (timestamp r)) example
     = [1687776627708785; 1687776639624035; 1687777112925228; 1687777123988788]%Z
  /\ increasing (map (fun r => instant (timestamp r)) example)
  /\ (forall i j a b,
        i < j ->
        map (fun r => instant (timestamp r)) example !! i = Some a ->
        map (fun r => instant (timestamp r)) example !! j = Some b ->
        (a < b)%Z).
Proof.
  assert (Hinc : increasing (map (fun r => instant (timestamp r)) example)).
  { intros i a b Ha Hb.
    do 4 (destruct i as [|i];
          [vm_compute in Ha, Hb;
           first [discriminate Hb | injection Ha as <-; injection Hb as <-; reflexivity]|]).
    destruct i; discriminate Ha. }
  split; [reflexivity|]. split; [reflexivity|]. split; [exact Hinc|].
  intros i j a b Hij. apply increasing_all; assumption.
Qed.

(** *** The workflow file *)

Import Json.

Lemma as_string_sound j s : as_string j = Some s -> j = JString s.
Proof. destruct j; try discriminate. intros [= ->]. reflexivity. Qed.

Lemma as_strings_sound j ss : as_strings j = Some ss -> j = JArray (map JString ss).
Proof.
  destruct j as [| | | |items|]; try discriminate. simpl.
  intros H. f_equal. apply mapM_Some in H.
  induction H as [|x y l k Hxy _ IH]; [reflexivity|].
  simpl. rewrite (as_string_sound _ _ Hxy), IH. reflexivity.
Qed.

Ltac three_members :=
  first [ reflexivity
        | apply perm_swap
        | apply perm_skip; apply perm_swap
        | eapply perm_trans; [apply perm_swap | apply perm_skip; apply perm_swap]
        | eapply perm_trans; [apply perm_skip; apply perm_swap | apply perm_swap]
        | eapply perm_trans; [apply perm_swap |];
          eapply perm_trans; [apply perm_skip; apply perm_swap | apply perm_swap] ].

(** What decodes as a workflow is an object with exactly the three
    fields, in any order. *)
Lemma decode_workflow_sound j w : decode_workflow j = Some w -> is_workflow j w.
Proof.
  destruct j as [| | | | |members]; try discriminate.
  destruct members as [|[k1 v1] [|[k2 v2] [|[k3 v3] [|]]]]; try discriminate.
  unfold decode_workflow, field. cbn [length Nat.eqb List.find fst snd].
  intros H. exists [(k1, v1); (k2, v2); (k3, v3)]. split; [reflexivity|].
  destruct (String.eqb_spec k1 "name"), (String.eqb_spec k2 "name"),
           (String.eqb_spec k3 "name"); cbn in H;
  try discriminate H;
  match type of H with
  | context [as_string ?v] =>
      destruct (as_string v) as [wn|] eqn:En; [apply as_string_sound in En|discriminate H]
  end; cbn in H;
  destruct (String.eqb_spec k1 "description"), (String.eqb_spec k2 "description"),
           (String.eqb_spec k3 "description"); cbn in H;
  try discriminate H; try congruence;
  match type of H with
  | context [as_string ?v] =>
      destruct (as_string v) as [wd|] eqn:Ed; [apply as_string_sound in Ed|discriminate H]
  end; cbn in H;
  destruct (String.eqb_spec k1 "tools"), (String.eqb_spec k2 "tools"),
           (String.eqb_spec k3 "tools"); cbn in H;
  try discriminate H; try congruence;
  match type of H with
  | context [as_strings ?v] =>
      destruct (as_strings v) as [wt|] eqn:Et; [apply as_strings_sound in Et|discriminate H]
  end; cbn in H;
  injection H as <-; cbn [name description tools]; subst;
  three_members.
Qed.

Lemma decode_sound j ws : decode j = Some ws -> is_workflow_file j ws.
Proof.
  destruct j as [| | | |items|]; try discriminate. simpl.
  intros H. exists items. split; [reflexivity|].
  apply mapM_Some in H. eapply Forall2_impl; [exact H|].
  intros x y. apply decode_workflow_sound.
Qed.

Example parse_accepts :
  parse "[1, true, null, -12, 0]"
    = Some (JArray [JNumber 1; JBool true; JNull; JNumber (-12); JNumber 0])
  /\ parse "[[[]], {}]" = Some (JArray [JArray [JArray []]; JObject []]).
Proof. repeat split. Qed.

Example parse_rejects :
  parse "[1,]" = None /\ parse "[1.5]" = None /\ parse "[01]" = None
  /\ parse "[-]" = None /\ parse "[] []" = None /\ parse "tru" = None.
Proof. repeat split. Qed.

(** An object that lacks a field, or has a fourth, is no workflow. *)
Example decode_rejects :
  decode_workflow (JObject [("name", JString "n"); ("description", JString "d")]) = None
  /\ decode_workflow (JObject [("name", JString "n"); ("description", JString "d");
                               ("tools", JArray []); ("extra", JNull)]) = None
  /\ decode_workflow (JObject [("name", JString "n"); ("description", JString "d");
                               ("tools", JArray [JNumber 1])]) = None
  /\ decode_workflow (JObject [("name", JString "n"); ("name", JString "m");
                               ("tools", JArray [])]) = None.
Proof. repeat split. Qed.

(** C4. What decodes as a workflow file is a JSON array of objects, each
    with exactly the members [name] (a string), [description] (a string)
    and [tools] (an array of strings, whose order is kept).  The example
    of the notebook parses as JSON and decodes as such a file with one
    workflow, the one it shows. *)
Theorem lemonai_json_conforms :
  (forall j ws, decode j = Some ws -> is_workflow_file j ws)
  /\ (exists j, parse lemonai_json_text = Some j
                /\ decode j = Some lemonai_workflows
                /\ is_workflow_file j lemonai_workflows)
  /\ lemonai_workflows
     = [ mkWorkflow "Hackernews Airtable User Workflow"
           "retrieves user data from Hackernews and appends it to a table in Airtable"
           ["hackernews-get-user"; "airtable-append-data"] ].
Proof.
  split; [exact decode_sound|]. split; [|reflexivity].
  eexists. split; [reflexivity|]. split; [reflexivity|].
  apply decode_sound. reflexivity.
Qed.

(** C5. The example log holds two runs.  For each of them, and so for
    the run of every line of the log, the tools on the lines of the
    run, in file order, are the tools of the workflow the example file
    defines, in its order: hackernews-get-user, then
    airtable-append-data. *)
Theorem logged_runs_follow_workflow :
  parse_log Notebook.lemonai_log = Some example
  /\ (parse lemonai_json_text ≫= decode) = Some lemonai_workflows
  /\ exists w,
       lemonai_workflows = [w]
       /\ tools w = ["hackernews-get-user"; "airtable-append-data"]
       /\ length (run_identifiers example) = 2
       /\ Forall (fun id => tools_of_run id example = tools w) (run_identifiers example)
       /\ Forall (fun r => tools_of_run (run_identifier r) example = tools w) example.
Proof.
  split; [reflexivity|]. split; [reflexivity|].
  eexists. split; [reflexivity|]. split; [reflexivity|]. split; [reflexivity|].
  split; repeat constructor.
Qed.


(** * The cells run one by one, and in a kernel that is not fresh *)

Import Cells.

Lemma script_is_its_cells : script = imports_cell ++ credentials_cell ++ quick_start_cell.
Proof. reflexivity. Qed.

Ltac unfold_cell c :=
  let s := eval vm_compute in c in change c with s.









(** X4. When the constructor [OpenAI] raises, the run ends with that
    error: [execute_workflow] is never called, [model] stays unbound, no
    line beyond the constructor's is appended to the log, and the two
    environment entries have been written all the same. *)
Theorem constructor_failure_stops_the_run extern env log msg :
  result (OpenAI_reply extern env log) = inr msg ->
  fst (run extern env log) = inr (ExternalError msg)
  /\ List.filter (is_call_of "lemonai" "execute_workflow") (trace (snd (run extern env log))) = []
  /\ globals (snd (run extern env log)) !! "model" = None
  /\ log_file (snd (run extern env log)) = log ++ appended (OpenAI_reply extern env log)
  /\ environ (snd (run extern env log)) !! "OPENAI_API_KEY" = Some "*INSERT OPENAI API KEY HERE*"
  /\ environ (snd (run extern env log)) !! "AIRTABLE_ACCESS_TOKEN"
     = Some "*INSERT AIRTABLE TOKEN HERE*".
Proof.
  intros H.
  rewrite run_outcome, run_trace, run_globals, run_log_file, run_environ, H.
  split; [reflexivity|]. split; [reflexivity|]. split; [reflexivity|].
  split; [rewrite app_nil_r; reflexivity|].
  split; [apply environ_after_OPENAI | apply environ_after_AIRTABLE].
Qed.

Lemma constructor_failure_stops_the_run_witness :
  result (OpenAI_reply (failing_extern "invalid api key") ∅ []) = inr "invalid api key"
  /\ fst (run (failing_extern "invalid api key") ∅ []) = inr (ExternalError "invalid api key").
Proof.
  split; [reflexivity|].
  exact (proj1 (constructor_failure_stops_the_run
                  (failing_extern "invalid api key") ∅ [] "invalid api key" eq_refl)).
Defined.

(** X5. The f-string of the quick-start cell reads the three names at
    the time it is evaluated: with [hackernews_username],
    [airtable_base_id] and [airtable_table_id] bound to any three
    strings, it yields the instruction text with those strings in place,
    and leaves the state as it was. *)
Theorem prompt_substitutes extern st username base_id table_id :
  globals st !! "hackernews_username" = Some (VStr username) ->
  globals st !! "airtable_base_id" = Some (VStr base_id) ->
  globals st !! "airtable_table_id" = Some (VStr table_id) ->
  eval extern Notebook.prompt_fstring st
  = (inl (VStr (prompt_for username base_id table_id)), st).
Proof.
  intros H1 H2 H3. destruct st as [e g l t]. simpl in H1, H2, H3.
  unfold Notebook.prompt_fstring.
  run_both. rewrite H1. run_both. rewrite H2. run_both. rewrite H3. run_both.
  reflexivity.
Qed.

Lemma prompt_substitutes_witness :
  eval sample_extern Notebook.prompt_fstring filled_in
  = (inl (VStr (prompt_for "pg" "app1" "tbl1")), filled_in).
Proof.
  exact (prompt_substitutes sample_extern filled_in "pg" "app1" "tbl1" eq_refl eq_refl eq_refl).
Defined.


(** X7. The quick-start cell writes no environment variable.  In a
    kernel where the import cell has run, it calls the constructor, and
    every call it makes is made in the environment the cell started in:
    when the credentials cell is skipped, the external callables are
    reached with whatever credentials the process already had, set or
    not. *)
Theorem quick_start_cell_keeps_environ extern st :
  globals st !! "OpenAI" = Some (VImported "langchain" "OpenAI") ->
  globals st !! "execute_workflow" = Some (VImported "lemonai" "execute_workflow") ->
  exists made,
    trace (snd (exec_block extern quick_start_cell st)) = trace st ++ made
    /\ made <> []
    /\ Forall (fun ev => exists m n args kwargs, ev = ExternCall m n args kwargs (environ st)) made
    /\ environ (snd (exec_block extern quick_start_cell st)) = environ st.
Proof.
  intros H1 H2. destruct st as [e g l t]. simpl in H1, H2.
  unfold_cell quick_start_cell.
  repeat (run_both;
          first [ progress resolve_lookup | rewrite H1 | rewrite H2
                | progress normalize_strings | split_on_reply ]);
    cbn [fst snd];
    eexists; (split; [rewrite <- ?app_assoc; reflexivity|]);
    (split; [discriminate|]);
    (split; [repeat constructor; do 4 eexists; reflexivity | reflexivity]).
Qed.

Lemma quick_start_cell_keeps_environ_witness :
  environ (snd (exec_block sample_extern quick_start_cell (mkState ∅ (with_imports ∅) [] [])))
  = ∅.
Proof.
  assert (H1 : globals (mkState ∅ (with_imports ∅) [] []) !! "OpenAI"
               = Some (VImported "langchain" "OpenAI")) by reflexivity.
  assert (H2 : globals (mkState ∅ (with_imports ∅) [] []) !! "execute_workflow"
               = Some (VImported "lemonai" "execute_workflow")) by reflexivity.
  destruct (quick_start_cell_keeps_environ sample_extern (mkState ∅ (with_imports ∅) [] [])
              H1 H2) as (made & _ & _ & _ & H).
  exact H.
Defined.
